(** * A shallow embedding of the [alternatives] module
      (lib/ansible/modules/system/alternatives.py).

    The module drives the external [update-alternatives] tool.  Every call
    to [module.run_command] is an oracle call: the oracle is a state [σ]
    together with a response function giving, for a command, the new state,
    the exit status and the standard output.  The module itself is written
    in a small state-and-exit monad: [exit_json] and [fail_json] end the
    run (they call [sys.exit] in Python), an uncaught Python exception ends
    it as well.  Every oracle call is recorded, with its exit status, in a
    trace, so that the commands issued by a run can be inspected. *)

From Stdlib Require Import String Ascii List ZArith Bool Lia.
Import ListNotations.
Local Open Scope string_scope.

(** ** Characters and the regular-expression fragments used by the module *)

Definition NL : ascii := ascii_of_nat 10%nat.
Definition CR : ascii := ascii_of_nat 13%nat.

(** [\s] of Python 3's [re] on a [str] pattern, and the separators of
    [str.split()], restricted to ASCII: [\t \n \v \f \r], [\x1c]..[\x1f]
    and the space. *)
Definition is_space (c : ascii) : bool :=
  let n := nat_of_ascii c in (
  ((9 <=? n) && (n <=? 13)) || ((28 <=? n) && (n <=? 32)))%nat.

(** Line boundaries of Python 3's [str.splitlines] on ASCII text:
    [\n \v \f \r \x1c \x1d \x1e] ([\r\n] counts as one boundary). *)
Definition is_line_break (c : ascii) : bool :=
  let n := nat_of_ascii c in (
  ((10 <=? n) && (n <=? 13)) || ((28 <=? n) && (n <=? 30)))%nat.

Section Regex.
Variable A : Type.

(** [\s*], greedy: the longest run of whitespace is tried first, then
    shorter ones (backtracking), each handed to the continuation [k]. *)
Fixpoint ws_star (k : string -> option A) (s : string) : option A :=
  match s with
  | String c s' =>
      if is_space c then
        match ws_star k s' with
        | Some a => Some a
        | None => k s
        end
      else k s
  | EmptyString => k EmptyString
  end.

(** A capturing group [.*], greedy, [.] matching every character but [\n]; the
    continuation receives the captured group and the rest of the input. *)
Fixpoint dot_star (k : string -> string -> option A) (s : string)
  : option A :=
  match s with
  | String c s' =>
      if Ascii.eqb c NL then k EmptyString s
      else
        match dot_star (fun g r => k (String c g) r) s' with
        | Some a => Some a
        | None => k EmptyString s
        end
  | EmptyString => k EmptyString EmptyString
  end.

(** A literal word. *)
Fixpoint lit (w : string) (k : string -> option A) (s : string)
  : option A :=
  match w with
  | EmptyString => k s
  | String c w' =>
      match s with
      | String d s' => if Ascii.eqb c d then lit w' k s' else None
      | EmptyString => None
      end
  end.

(** A single [\s]. *)
Definition one_space (k : string -> option A) (s : string) : option A :=
  match s with
  | String c s' => if is_space c then k s' else None
  | EmptyString => None
  end.

(** [re.search] of a pattern starting with [^] under [re.MULTILINE]:
    the first position at the start of a line where [m] matches.
    [bol] tells whether the current position starts a line. *)
Fixpoint search_multiline (m : string -> option A) (bol : bool)
    (s : string) : option A :=
  match (if bol then m s else None) with
  | Some a => Some a
  | None =>
      match s with
      | EmptyString => None
      | String c s' => search_multiline m (Ascii.eqb c NL) s'
      end
  end.
End Regex.

Arguments ws_star {A} k s.
Arguments dot_star {A} k s.
Arguments lit {A} w k s.
Arguments one_space {A} k s.
Arguments search_multiline {A} m bol s.

(** [$] under [re.MULTILINE]: end of input or before a [\n]. *)
Definition dollar (r : string) : bool :=
  match r with
  | EmptyString => true
  | String c _ => Ascii.eqb c NL
  end.

(** [re.compile(r'^\s* link currently points to ( .* )$', re.MULTILINE)]
    (without the spaces after the star and inside the group), matched at one
    position; the result is [group(1)]. *)
Definition current_path_at (s : string) : option string :=
  ws_star (lit "link currently points to "
             (dot_star (fun g r => if dollar r then Some g else None))) s.

(** [current_path_regex.search(display_output)]: [None] when no line
    matches, [Some (group(1))] otherwise. *)
Definition current_path_search (s : string) : option string :=
  search_multiline current_path_at true s.

(** [re.compile(r'^( \/.* )\s-\spriority', re.MULTILINE)] (without the
    spaces inside the group) matched at one position: the group and the
    input left after the match. *)
Definition alternative_at (s : string) : option (string * string) :=
  lit "/"
    (dot_star (fun g r =>
       match one_space (lit "-" (one_space (lit "priority" Some))) r with
       | Some rest => Some (String "/"%char g, rest)
       | None => None
       end)) s.

(** The scan of [findall]: after a match it resumes where the match ended
    (just after "priority", not at the start of a line); otherwise it moves
    on by one character.  Every step consumes at least one character, so a
    fuel of one more than the length of the input is never exhausted. *)
Fixpoint findall_go (fuel : nat) (bol : bool) (s : string) : list string :=
  match fuel with
  | O => []
  | S f =>
      match (if bol then alternative_at s else None) with
      | Some (g, rest) => g :: findall_go f false rest
      | None =>
          match s with
          | EmptyString => []
          | String c s' => findall_go f (Ascii.eqb c NL) s'
          end
      end
  end.

(** [alternative_regex.findall(display_output)]. *)
Definition alternative_findall (s : string) : list string :=
  findall_go (S (String.length s)) true s.

(** ** [str.splitlines] and [str.split] *)

(** The current (first) line and the lines after it. *)
Fixpoint splitlines_go (s : string) : string * list string :=
  match s with
  | EmptyString => (EmptyString, [])
  | String c s' =>
      let (l, ls) := splitlines_go s' in
      if is_line_break c then
        if Ascii.eqb c CR && dollar s' && negb (String.eqb s' "") then
          (* [\r\n]: the [\n] already closed the (empty) line after [\r] *)
          (EmptyString, ls)
        else (EmptyString, match s' with EmptyString => [] | _ => l :: ls end)
      else (String c l, ls)
  end.

Definition splitlines (s : string) : list string :=
  match s with
  | EmptyString => []
  | _ => let (l, ls) := splitlines_go s in l :: ls
  end.

(** The current token (possibly empty) and the tokens after it. *)
Fixpoint split_go (s : string) : string * list string :=
  match s with
  | EmptyString => (EmptyString, [])
  | String c s' =>
      let (t, ts) := split_go s' in
      if is_space c then
        (EmptyString, if String.eqb t "" then ts else t :: ts)
      else (String c t, ts)
  end.

(** [str.split()] with no argument. *)
Definition split_ws (s : string) : list string :=
  let (t, ts) := split_go s in if String.eqb t "" then ts else t :: ts.

(** ** The oracle commands

    The argument vectors passed to [module.run_command]; [update-alternatives]
    is the binary found by [module.get_bin_path]. *)
Inductive command : Type :=
  (* ['env', 'LC_ALL=C', cmd, '--display', name] *)
  | Display (name : string)
  (* ['env', 'LC_ALL=C', cmd, '--query', name] *)
  | Query (name : string)
  (* [cmd, '--install', link, name, path, str(priority)] *)
  | Install (link name path : string) (priority : Z)
  (* [cmd, '--set', name, path] *)
  | SetAlt (name path : string)
  (* [cmd, '--remove', name, path] *)
  | Remove (name path : string).

(** The commands that change the alternatives database. *)
Definition is_mutating (c : command) : bool :=
  match c with
  | Display _ | Query _ => false
  | Install _ _ _ _ | SetAlt _ _ | Remove _ _ => true
  end.

(** ** How a run of the module ends *)

Inductive failure : Type :=
  (* fail_json(msg="Needed to install the alternative, but unable to do so
     as we are missing the link") *)
  | MissingLinkError
  (* a [check_rc=True] command exited with a non-zero status *)
  | OracleExecutionError (c : command) (rc : Z).

(** Python exceptions that nothing in the module catches. *)
Inductive exn : Type :=
  (* [current_path_regex.search(display_output).group(1)] on [None] *)
  | AttributeError
  (* [line.split()[1]] on a line with fewer than two tokens *)
  | IndexError.

Inductive outcome : Type :=
  | Exited (changed : bool)  (* module.exit_json(changed=...) *)
  | Failed (f : failure)     (* module.fail_json(...) *)
  | Raised (e : exn).        (* an uncaught exception *)

(** The module's parameters, after [AnsibleModule] validated them, and
    [module.check_mode]. *)
Inductive state_choice : Type := present | absent.

Record params : Type := {
  name : string;
  path : string;
  link : option string;
  priority : Z;
  state : state_choice;
  check_mode : bool
}.

(** Python truthiness of [link] ([None] or a string). *)
Definition truthy (o : option string) : bool :=
  match o with
  | Some l => negb (String.eqb l "")
  | None => false
  end.

(** [x in all_alternatives] *)
Definition mem (x : string) (l : list string) : bool :=
  existsb (String.eqb x) l.

(** [current_path != path], [current_path] being [None] or a string. *)
Definition differs (current_path : option string) (p : string) : bool :=
  match current_path with
  | Some c => negb (String.eqb c p)
  | None => true
  end.

(** The lines of [--query] output, scanned by
    [for line in ...: if line.startswith('Link:'): ... break]. *)
Fixpoint find_link_line (lines : list string) : option string :=
  match lines with
  | [] => None
  | l :: ls => if String.prefix "Link:" l then Some l else find_link_line ls
  end.

Section Module.
(** The oracle: its state and its response to a command (new state, exit
    status, standard output). *)
Context {σ : Type} (respond : σ -> command -> σ * (Z * string)).

Record world : Type := {
  oracle_st : σ;
  trace : list (command * Z)
}.

Inductive step (A : Type) : Type :=
  | Cont (a : A)
  | Halt (o : outcome).
Arguments Cont {A} a.
Arguments Halt {A} o.

Definition M (A : Type) : Type := world -> world * step A.

Definition ret {A} (a : A) : M A := fun w => (w, Cont a).

Definition bind {A B} (m : M A) (f : A -> M B) : M B :=
  fun w =>
    let (w', r) := m w in
    match r with
    | Cont a => f a w'
    | Halt o => (w', Halt o)
    end.

Local Notation "x <- m ;; k" := (bind m (fun x => k))
  (at level 61, m at next level, right associativity).

Definition halt {A} (o : outcome) : M A := fun w => (w, Halt o).
Definition exit_json {A} (changed : bool) : M A := halt (Exited changed).
Definition fail_json {A} (f : failure) : M A := halt (Failed f).
Definition raise {A} (e : exn) : M A := halt (Raised e).

(** [module.run_command(args)]: the oracle answers and the call is
    recorded with its exit status. *)
Definition run_command (c : command) : M (Z * string) :=
  fun w =>
    let (s', r) := respond (oracle_st w) c in
    ({| oracle_st := s'; trace := trace w ++ [(c, fst r)] |}, Cont r).

(** Modelled from the spec: [module.run_command(args, check_rc=True)]
    (AnsibleModule, module_utils/basic.py, not part of this source):
    a non-zero exit status is fatal for the invocation and ends it with a
    reported failure, so no later command of the module runs. *)
Definition run_command_check (c : command) : M unit :=
  r <- run_command c ;;
  if Z.eqb (fst r) 0 then ret tt
  else fail_json (OracleExecutionError c (fst r)).

(** [get_current(module, cmd, name, link)]: the current path, the
    registered alternatives and the link (possibly read from [--query]). *)
Definition get_current (nm : string) (lk : option string)
  : M (option string * list string * option string) :=
  r <- run_command (Display nm) ;;
  let (rc, display_output) := r in
  if Z.eqb rc 0 then
    match current_path_search display_output with
    | None => raise AttributeError
    | Some current_path =>
        let all_alternatives := alternative_findall display_output in
        if negb (truthy lk) then
          q <- run_command (Query nm) ;;
          let (rc', query_output) := q in
          if Z.eqb rc' 0 then
            match find_link_line (splitlines query_output) with
            | Some line =>
                match nth_error (split_ws line) 1 with
                | Some l => ret (Some current_path, all_alternatives, Some l)
                | None => raise IndexError
                end
            | None => ret (Some current_path, all_alternatives, lk)
            end
          else ret (Some current_path, all_alternatives, lk)
        else ret (Some current_path, all_alternatives, lk)
    end
  else ret (None, [], lk).

(** [set_alternative(module, cmd, name, path, link, priority,
    current_path, all_alternatives)]. *)
Definition set_alternative (nm pth : string) (lk : option string)
    (prio : Z) (current_path : option string)
    (all_alternatives : list string) (chk : bool) : M unit :=
  if differs current_path pth then
    if chk then exit_json true
    else
      _ <- (if negb (mem pth all_alternatives) then
              match lk with
              | Some l =>
                  if String.eqb l "" then fail_json MissingLinkError
                  else run_command_check (Install l nm pth prio)
              | None => fail_json MissingLinkError
              end
            else ret tt) ;;
      _ <- run_command_check (SetAlt nm pth) ;;
      exit_json true
  else exit_json false.

(** [remove_alternative(module, cmd, name, path, all_alternatives)]. *)
Definition remove_alternative (nm pth : string)
    (all_alternatives : list string) : M unit :=
  if mem pth all_alternatives then
    _ <- run_command_check (Remove nm pth) ;;
    exit_json true
  else exit_json false.

(** [main()], after the argument parsing. *)
Definition main (p : params) : M unit :=
  r <- get_current (name p) (link p) ;;
  let '(current_path, all_alternatives, lk) := r in
  match state p with
  | present =>
      set_alternative (name p) (path p) lk (priority p) current_path
        all_alternatives (check_mode p)
  | absent => remove_alternative (name p) (path p) all_alternatives
  end.

(** A run of the module from oracle state [s]: the final world and how
    the run ended ([main] always ends in [exit_json], [fail_json] or an
    exception). *)
Definition run (p : params) (s : σ) : world * step unit :=
  main p {| oracle_st := s; trace := [] |}.

Definition outcome_of (r : world * step unit) : option outcome :=
  match snd r with
  | Halt o => Some o
  | Cont _ => None
  end.

(** The mutating commands of a trace, with their exit statuses. *)
Definition mutations (tr : list (command * Z)) : list (command * Z) :=
  filter (fun e => is_mutating (fst e)) tr.
End Module.

Arguments Cont {A} a.
Arguments Halt {A} o.

(** ** A model of the [update-alternatives] database

    Used to run the module on concrete inputs.  A group has a link, a
    current selection and its candidates with their priorities. *)

Fixpoint digits_go (fuel n : nat) (acc : string) : string :=
  match fuel with
  | O => acc
  | S f =>
      let acc' := String (ascii_of_nat (48 + n mod 10)) acc in
      if (n <? 10)%nat then acc' else digits_go f (n / 10) acc'
  end.

(** [str(z)] for an integer. *)
Definition string_of_Z (z : Z) : string :=
  match z with
  | Z0 => "0"
  | Zpos p => digits_go (Pos.to_nat p) (Pos.to_nat p) ""
  | Zneg p => "-" ++ digits_go (Pos.to_nat p) (Pos.to_nat p) ""
  end.

Record group : Type := {
  g_link : string;
  g_current : string;
  g_alts : list (string * Z)
}.

Definition db : Type := string -> option group.

Definition db_update (d : db) (n : string) (g : option group) : db :=
  fun k => if String.eqb k n then g else d k.

Definition nls : string := String NL EmptyString.

(** The report of [--display]. *)
Definition render_display (g : group) : string :=
  "link currently points to " ++ g_current g ++ nls ++
  fold_right (fun a acc =>
                fst a ++ " - priority " ++ string_of_Z (snd a) ++ nls ++ acc)
             "" (g_alts g).

(** The report of [--query]. *)
Definition render_query (n : string) (g : group) : string :=
  "Name: " ++ n ++ nls ++ "Link: " ++ g_link g ++ nls ++
  "Status: manual" ++ nls ++ "Value: " ++ g_current g ++ nls.

Definition db_respond (d : db) (c : command) : db * (Z * string) :=
  match c with
  | Display n =>
      match d n with
      | Some g => (d, (0%Z, render_display g))
      | None => (d, (2%Z, ""))
      end
  | Query n =>
      match d n with
      | Some g => (d, (0%Z, render_query n g))
      | None => (d, (2%Z, ""))
      end
  | Install l n p pr =>
      match d n with
      | Some g =>
          let alts := if mem p (map fst (g_alts g)) then g_alts g
                      else app (g_alts g) [(p, pr)] in
          (db_update d n (Some {| g_link := g_link g;
                                  g_current := g_current g;
                                  g_alts := alts |}), (0%Z, ""))
      | None =>
          (db_update d n (Some {| g_link := l; g_current := p;
                                  g_alts := [(p, pr)] |}), (0%Z, ""))
      end
  | SetAlt n p =>
      match d n with
      | Some g =>
          if mem p (map fst (g_alts g)) then
            (db_update d n (Some {| g_link := g_link g; g_current := p;
                                    g_alts := g_alts g |}), (0%Z, ""))
          else (d, (2%Z, ""))
      | None => (d, (2%Z, ""))
      end
  | Remove n p =>
      match d n with
      | Some g =>
          match filter (fun a => negb (String.eqb (fst a) p)) (g_alts g) with
          | [] => (db_update d n None, (0%Z, ""))
          | (q, pr) :: rest =>
              (db_update d n
                 (Some {| g_link := g_link g;
                          g_current := if String.eqb (g_current g) p
                                       then q else g_current g;
                          g_alts := (q, pr) :: rest |}), (0%Z, ""))
          end
      | None => (d, (2%Z, ""))
      end
  end.

(** The same database used by a user without the right to change it: every
    mutating command exits with status 2. *)
Definition denied_respond (d : db) (c : command) : db * (Z * string) :=
  if is_mutating c then (d, (2%Z, "")) else db_respond d c.

(** A database with the [editor] group of the spec's example. *)
Definition editor_group : group := {|
  g_link := "/usr/bin/editor";
  g_current := "/usr/bin/vim.basic";
  g_alts := [("/usr/bin/vim.basic", 30%Z); ("/usr/bin/vim.tiny", 10%Z)]
|}.

Definition db0 : db := fun k => if String.eqb k "editor" then Some editor_group else None.

(** The display report of the spec's example. *)
Definition vim_display : string :=
  "link currently points to /usr/bin/vim.basic" ++ nls ++
  "/usr/bin/vim.basic - priority 30" ++ nls ++
  "/usr/bin/vim.tiny - priority 10" ++ nls.

Definition mk_params (n p : string) (l : option string) (pr : Z)
    (st : state_choice) (chk : bool) : params :=
  {| name := n; path := p; link := l; priority := pr; state := st;
     check_mode := chk |}.

(** Requests on the [editor] group of [db0]: select a candidate, install a
    new path, remove a candidate, keep the current path. *)
Definition p_select : params :=
  mk_params "editor" "/usr/bin/vim.tiny" (Some "/usr/bin/editor") 50 present false.
Definition p_install : params :=
  mk_params "editor" "/usr/bin/nano" (Some "/usr/bin/editor") 40 present false.
Definition p_remove : params :=
  mk_params "editor" "/usr/bin/vim.tiny" (Some "/usr/bin/editor") 50 absent false.
Definition p_converged : params :=
  mk_params "editor" "/usr/bin/vim.basic" (Some "/usr/bin/editor") 50 present false.

(** An oracle whose [--display] always prints [out] with status 0 and
    whose other commands print nothing and succeed. *)
Definition fixed_respond (out : string) (u : unit) (c : command)
    : unit * (Z * string) :=
  match c with
  | Display _ => (u, (0%Z, out))
  | _ => (u, (0%Z, ""))
  end.

(** No [\n] in a string. *)
Fixpoint no_nl (s : string) : bool :=
  match s with
  | EmptyString => true
  | String c s' => negb (Ascii.eqb c NL) && no_nl s'
  end.

(** No whitespace character (in the sense of [str.split()]) in a string. *)
Fixpoint no_space (s : string) : bool :=
  match s with
  | EmptyString => true
  | String c s' => negb (is_space c) && no_space s'
  end.

(** A [--display] report without a "link currently points to" line. *)
Definition unparsed_display : string := "editor - auto mode" ++ nls.

(** ** Properties *)

Ltac unfold_monad :=
  unfold run_command_check, run_command, exit_json, fail_json, raise, halt,
    ret, bind in *.

(** Case analysis on every answer of the oracle [resp] and every test met
    by a run recorded in hypothesis [H]. *)
Ltac split_run resp H :=
  repeat (simpl in H;
    match type of H with
    | context [resp ?s ?c] =>
        let E := fresh "E" in
        destruct (resp s c) as [? [? ?]] eqn:E
    | context [if ?b then _ else _] => destruct b eqn:?
    | context [match ?x with Some _ => _ | None => _ end] =>
        destruct x eqn:?
    | context [match ?x with [] => _ | _ :: _ => _ end] =>
        destruct x eqn:?
    end).

(** Turn the exit-status tests met on the way into equations. *)
Ltac rc_eqs :=
  repeat match goal with
  | Hb : (_ =? _)%Z = true |- _ => apply Z.eqb_eq in Hb; subst
  | Hb : (_ =? _)%Z = false |- _ => apply Z.eqb_neq in Hb
  end.

Section Proofs.
Context {σ : Type} (respond : σ -> command -> σ * (Z * string)).



(** The probe issues only [--display] and [--query]. *)
Lemma get_current_reads nm lk w w' r :
  get_current respond nm lk w = (w', r) ->
  exists ext, trace w' = (trace w ++ ext)%list /\ mutations ext = [].
Proof.
  unfold get_current; unfold_monad. intro H.
  split_run respond H; inversion H; subst; simpl;
    (eexists; split; [rewrite <- ?app_assoc; reflexivity | reflexivity]).
Qed.

Lemma mutations_app l1 l2 :
  mutations (l1 ++ l2)%list = (mutations l1 ++ mutations l2)%list.
Proof. unfold mutations. apply filter_app. Qed.

Lemma get_current_no_mutation nm lk s w' r :
  get_current respond nm lk {| oracle_st := s; trace := [] |} = (w', r) ->
  mutations (trace w') = [].
Proof.
  intro H. destruct (get_current_reads _ _ _ _ _ H) as [ext [Ht Hm]].
  rewrite Ht. simpl. exact Hm.
Qed.

(** [main] after a probe that did not end the run. *)
Lemma main_after_probe p w w1 cur alts lk :
  get_current respond (name p) (link p) w = (w1, Cont (cur, alts, lk)) ->
  main respond p w =
    match state p with
    | present =>
        set_alternative respond (name p) (path p) lk (priority p) cur alts
          (check_mode p) w1
    | absent => remove_alternative respond (name p) (path p) alts w1
    end.
Proof.
  intro H. unfold main, bind. rewrite H. destruct (state p); reflexivity.
Qed.

Lemma main_after_halt p w w1 o :
  get_current respond (name p) (link p) w = (w1, Halt o) ->
  main respond p w = (w1, Halt o).
Proof.
  intro H. unfold main, bind. rewrite H. reflexivity.
Qed.
End Proofs.

Section Claims.
Context {σ : Type} (respond : σ -> command -> σ * (Z * string)).


(** C3: when [--display] succeeds but no line matches
    "link currently points to X", the probe does not default the current
    path: [.group(1)] on [None] raises, the exception is not caught, and
    the run ends with it after the single [--display] call. *)
Theorem display_unparsed_raises (p : params) (s s1 : σ) (out : string) :
  respond s (Display (name p)) = (s1, (0%Z, out)) ->
  current_path_search out = None ->
  run respond p s =
    ({| oracle_st := s1; trace := [(Display (name p), 0%Z)] |},
     Halt (Raised AttributeError)).
Proof.
  intros H1 H2. unfold run. apply main_after_halt.
  unfold get_current; unfold_monad. simpl. rewrite H1. simpl.
  rewrite H2. reflexivity.
Qed.

(** C6: when [--display] exits with a non-zero status, the probe returns
    no current path, no candidates and the link it was given, after the
    [--display] call alone (no [--query]); it is not an error. *)
Theorem display_failure_not_registered nm lk (w : world) s1 rc out :
  respond (oracle_st w) (Display nm) = (s1, (rc, out)) ->
  rc <> 0%Z ->
  get_current respond nm lk w =
    ({| oracle_st := s1; trace := (trace w ++ [(Display nm, rc)])%list |},
     Cont (None, [], lk)).
Proof.
  intros H1 H2. unfold get_current; unfold_monad. simpl. rewrite H1.
  simpl. apply Z.eqb_neq in H2. rewrite H2. reflexivity.
Qed.

(** C2 (amended): a present state that needs an installation (the path
    is not current and not a candidate) but has no link, neither given
    nor read from [--query], ends the run with the missing-link failure
    in real mode and with [changed=true] in check mode; in both cases no
    mutating command is issued. *)
Theorem missing_link_fails p s w1 cur alts lk :
  state p = present ->
  get_current respond (name p) (link p) {| oracle_st := s; trace := [] |}
    = (w1, Cont (cur, alts, lk)) ->
  differs cur (path p) = true ->
  mem (path p) alts = false ->
  truthy lk = false ->
  run respond p s =
    (w1, Halt (if check_mode p then Exited true
               else Failed MissingLinkError)) /\
  mutations (trace w1) = [].
Proof.
  intros Hst Hg Hd Hm Hl. split; [|eapply get_current_no_mutation; eauto].
  unfold run. rewrite (main_after_probe _ _ _ _ _ _ _ Hg), Hst.
  unfold set_alternative. rewrite Hd.
  destruct (check_mode p); [reflexivity|].
  rewrite Hm. simpl.
  destruct lk as [l|]; simpl in Hl.
  - destruct (String.eqb l "") eqn:E; [|discriminate]. reflexivity.
  - reflexivity.
Qed.

(** Real mode, present state, the path is not current: the run ends with
    [changed=true] only after a successful [--set] of that path, which is
    then the last oracle call. *)
Lemma set_alternative_changed nm pth lk prio cur alts w w' :
  set_alternative respond nm pth lk prio cur alts false w =
    (w', Halt (Exited true)) ->
  exists s_prev out,
    respond s_prev (SetAlt nm pth) = (oracle_st w', (0%Z, out)).
Proof.
  intro H. unfold set_alternative in H; unfold_monad.
  split_run respond H; inversion H; subst; rc_eqs; eauto.
Qed.

Lemma get_current_halts_raised nm lk w w' o :
  get_current respond nm lk w = (w', Halt o) -> exists e, o = Raised e.
Proof.
  intro H. unfold get_current in H; unfold_monad.
  split_run respond H; inversion H; eauto.
Qed.

(** A probe whose [--display] reads the requested path as the current one
    leads to [changed=false], unless no link was given and the [--query]
    output has a [Link:] line with no second token, which raises
    [IndexError]. *)
Lemma converged_reports_unchanged p s s1 out :
  state p = present ->
  respond s (Display (name p)) = (s1, (0%Z, out)) ->
  current_path_search out = Some (path p) ->
  outcome_of (run respond p s) = Some (Exited false) \/
  (truthy (link p) = false /\
   outcome_of (run respond p s) = Some (Raised IndexError) /\
   exists s2 qo line,
     respond s1 (Query (name p)) = (s2, (0%Z, qo)) /\
     find_link_line (splitlines qo) = Some line /\
     nth_error (split_ws line) 1 = None).
Proof.
  intros Hst Hd Hc.
  unfold run, main, get_current; unfold_monad. simpl. rewrite Hd. simpl.
  rewrite Hc, Hst.
  destruct (truthy (link p)) eqn:Hl; simpl.
  - left. unfold set_alternative. simpl. rewrite String.eqb_refl.
    reflexivity.
  - destruct (respond s1 (Query (name p))) as [s2 [rc qo]] eqn:Hq. simpl.
    destruct (Z.eqb rc 0) eqn:Hrc.
    + apply Z.eqb_eq in Hrc. subst rc.
      destruct (find_link_line (splitlines qo)) as [line|] eqn:Hf.
      * destruct (split_ws line) as [|t0 [|t ts]] eqn:Ht; simpl.
        -- right. split; [reflexivity|]. split; [reflexivity|].
           exists s2, qo, line. rewrite Ht. auto.
        -- right. split; [reflexivity|]. split; [reflexivity|].
           exists s2, qo, line. rewrite Ht. auto.
        -- left. unfold set_alternative. simpl. rewrite String.eqb_refl.
           reflexivity.
      * left. unfold set_alternative. simpl. rewrite String.eqb_refl.
        reflexivity.
    + left. unfold set_alternative. simpl. rewrite String.eqb_refl.
      reflexivity.
Qed.

(** C4 (amended): a present state whose probed current path is the
    requested path ends with [changed=false] and no mutating command; and
    when a real run ends with [changed=true], and the oracle displays a
    path it has just set as the current one, the same run repeated from
    the resulting oracle state ends with [changed=false], unless no link
    was given and the [--query] of the repeated run prints a [Link:] line
    with no second token, in which case it raises [IndexError]. *)
Theorem converged_is_noop_and_rerun_unchanged :
  (forall p s w1 alts lk,
     state p = present ->
     get_current respond (name p) (link p)
       {| oracle_st := s; trace := [] |} =
       (w1, Cont (Some (path p), alts, lk)) ->
     run respond p s = (w1, Halt (Exited false)) /\
     mutations (trace w1) = []) /\
  ((forall s s' n q out,
      no_nl q = true ->
      respond s (SetAlt n q) = (s', (0%Z, out)) ->
      exists s'' out',
        respond s' (Display n) = (s'', (0%Z, out')) /\
        current_path_search out' = Some q) ->
   forall p s,
     state p = present ->
     check_mode p = false ->
     no_nl (path p) = true ->
     outcome_of (run respond p s) = Some (Exited true) ->
     let s' := oracle_st (fst (run respond p s)) in
     outcome_of (run respond p s') = Some (Exited false) \/
     (truthy (link p) = false /\
      outcome_of (run respond p s') = Some (Raised IndexError) /\
      exists s1 out s2 qo line,
        respond s' (Display (name p)) = (s1, (0%Z, out)) /\
        current_path_search out = Some (path p) /\
        respond s1 (Query (name p)) = (s2, (0%Z, qo)) /\
        find_link_line (splitlines qo) = Some line /\
        nth_error (split_ws line) 1 = None)).
Proof.
  split.
  - intros p s w1 alts lk Hst Hg.
    split; [|eapply get_current_no_mutation; eauto].
    unfold run. rewrite (main_after_probe _ _ _ _ _ _ _ Hg), Hst.
    unfold set_alternative. simpl. rewrite String.eqb_refl. reflexivity.
  - intros Hset p s Hst Hchk Hnl Hrun s'.
    destruct (get_current respond (name p) (link p)
                {| oracle_st := s; trace := [] |})
      as [w1 [[[cur alts] lk] | o]] eqn:Hg.
    + unfold s'. unfold run in *. rewrite (main_after_probe _ _ _ _ _ _ _ Hg),
        Hst, Hchk in *.
      destruct (set_alternative respond (name p) (path p) lk (priority p)
                  cur alts false w1) as [w' r] eqn:Hsa.
      unfold outcome_of in Hrun. simpl in Hrun |- *.
      destruct r as [u | o]; [discriminate Hrun|].
      injection Hrun as Ho. subst o.
      destruct (set_alternative_changed _ _ _ _ _ _ _ _ Hsa)
        as [s_prev [out Hs]].
      destruct (Hset _ _ _ _ _ Hnl Hs) as [s'' [out' [Hd Hc]]].
      destruct (converged_reports_unchanged p (oracle_st w') s'' out'
                  Hst Hd Hc) as [H | [Hl [Hr [s2 [qo [line [Hq [Hf Ht]]]]]]]].
      * left. exact H.
      * right. split; [exact Hl|]. split; [exact Hr|].
        exists s'', out', s2, qo, line. auto.
    + unfold run in Hrun. rewrite (main_after_halt _ _ _ _ _ Hg) in Hrun.
      destruct (get_current_halts_raised _ _ _ _ _ Hg) as [e He].
      subst o. discriminate Hrun.
Qed.

(** C5 (amended): an absent state whose path is a candidate issues one
    mutating command, [--remove], and ends with [changed=true] when it
    succeeds and with the oracle failure otherwise; an absent state whose
    path is not a candidate ends with [changed=false], without error and
    without any mutating command. *)
Theorem absent_removes_or_noop p s w1 cur alts lk :
  state p = absent ->
  get_current respond (name p) (link p) {| oracle_st := s; trace := [] |}
    = (w1, Cont (cur, alts, lk)) ->
  (mem (path p) alts = true ->
   exists rc,
     mutations (trace (fst (run respond p s))) =
       [(Remove (name p) (path p), rc)] /\
     snd (run respond p s) =
       Halt (if Z.eqb rc 0 then Exited true
             else Failed (OracleExecutionError (Remove (name p) (path p)) rc)))
  /\
  (mem (path p) alts = false ->
   run respond p s = (w1, Halt (Exited false)) /\
   mutations (trace w1) = []).
Proof.
  intros Hst Hg.
  pose proof (get_current_no_mutation _ _ _ _ _ _ Hg) as Hm0.
  unfold run. rewrite (main_after_probe _ _ _ _ _ _ _ Hg), Hst.
  unfold remove_alternative.
  split; intro Hmem; rewrite Hmem.
  - unfold_monad. simpl.
    destruct (respond (oracle_st w1) (Remove (name p) (path p)))
      as [s2 [rc o]] eqn:E.
    simpl. exists rc.
    destruct (Z.eqb rc 0); simpl; split; try reflexivity;
      rewrite mutations_app, Hm0; reflexivity.
  - split; [reflexivity | exact Hm0].
Qed.

(** C8: in real mode, an installation followed by a selection issues
    [--install] first; when it fails the run ends with that failure and
    [--set] is never issued; otherwise [--set] follows and its status
    decides between [changed=true] and a failure. *)
Theorem install_then_set p s w1 cur alts l :
  state p = present ->
  check_mode p = false ->
  get_current respond (name p) (link p) {| oracle_st := s; trace := [] |}
    = (w1, Cont (cur, alts, Some l)) ->
  l <> "" ->
  differs cur (path p) = true ->
  mem (path p) alts = false ->
  exists rc1,
    (rc1 <> 0%Z /\
     mutations (trace (fst (run respond p s))) =
       [(Install l (name p) (path p) (priority p), rc1)] /\
     snd (run respond p s) =
       Halt (Failed (OracleExecutionError
                       (Install l (name p) (path p) (priority p)) rc1)))
    \/
    (rc1 = 0%Z /\
     exists rc2,
       mutations (trace (fst (run respond p s))) =
         [(Install l (name p) (path p) (priority p), 0%Z);
          (SetAlt (name p) (path p), rc2)] /\
       snd (run respond p s) =
         Halt (if Z.eqb rc2 0 then Exited true
               else Failed (OracleExecutionError
                              (SetAlt (name p) (path p)) rc2))).
Proof.
  intros Hst Hchk Hg Hl Hd Hmem.
  pose proof (get_current_no_mutation _ _ _ _ _ _ Hg) as Hm0.
  unfold run. rewrite (main_after_probe _ _ _ _ _ _ _ Hg), Hst, Hchk.
  unfold set_alternative. rewrite Hd, Hmem. simpl.
  apply String.eqb_neq in Hl. rewrite Hl.
  unfold_monad. simpl.
  destruct (respond (oracle_st w1) (Install l (name p) (path p) (priority p)))
    as [s2 [rc1 o1]] eqn:E1.
  simpl. exists rc1.
  destruct (Z.eqb rc1 0) eqn:Erc.
  - right. apply Z.eqb_eq in Erc. subst rc1. split; [reflexivity|].
    simpl.
    destruct (respond s2 (SetAlt (name p) (path p))) as [s3 [rc2 o2]] eqn:E2.
    simpl. exists rc2.
    destruct (Z.eqb rc2 0); simpl; split; try reflexivity;
      rewrite !mutations_app, Hm0; reflexivity.
  - left. apply Z.eqb_neq in Erc. simpl.
    split; [exact Erc|]. split; [|reflexivity].
    rewrite mutations_app, Hm0. reflexivity.
Qed.

Lemma find_link_line_first pre line post :
  Forall (fun x => String.prefix "Link:" x = false) pre ->
  String.prefix "Link:" line = true ->
  find_link_line (pre ++ line :: post)%list = Some line.
Proof.
  intros Hpre Hl. induction Hpre as [|x pre Hx Hpre IH]; simpl.
  - rewrite Hl. reflexivity.
  - rewrite Hx. exact IH.
Qed.

Lemma find_link_line_none ls :
  Forall (fun x => String.prefix "Link:" x = false) ls ->
  find_link_line ls = None.
Proof.
  intro H. induction H as [|x ls Hx H IH]; simpl; [reflexivity|].
  rewrite Hx. exact IH.
Qed.

(** C9: [--query] is issued only when no link was given and [--display]
    succeeded with a parsable report; the link is then the second token
    of the first line starting with "Link:"; it stays absent when
    [--query] fails or has no such line. *)
Theorem query_link_resolution :
  (forall nm lk s w' r,
     get_current respond nm lk {| oracle_st := s; trace := [] |} = (w', r) ->
     (exists rc, In (Query nm, rc) (trace w')) ->
     truthy lk = false /\
     exists s1 out cur,
       respond s (Display nm) = (s1, (0%Z, out)) /\
       current_path_search out = Some cur) /\
  (forall nm lk s s1 out cur s2 q pre line post t0 t ts,
     truthy lk = false ->
     respond s (Display nm) = (s1, (0%Z, out)) ->
     current_path_search out = Some cur ->
     respond s1 (Query nm) = (s2, (0%Z, q)) ->
     splitlines q = (pre ++ line :: post)%list ->
     Forall (fun x => String.prefix "Link:" x = false) pre ->
     String.prefix "Link:" line = true ->
     split_ws line = t0 :: t :: ts ->
     snd (get_current respond nm lk {| oracle_st := s; trace := [] |}) =
       Cont (Some cur, alternative_findall out, Some t)) /\
  (forall nm lk s s1 out cur s2 rc q,
     truthy lk = false ->
     respond s (Display nm) = (s1, (0%Z, out)) ->
     current_path_search out = Some cur ->
     respond s1 (Query nm) = (s2, (rc, q)) ->
     (rc <> 0%Z \/
      Forall (fun x => String.prefix "Link:" x = false) (splitlines q)) ->
     snd (get_current respond nm lk {| oracle_st := s; trace := [] |}) =
       Cont (Some cur, alternative_findall out, lk)).
Proof.
  split; [|split].
  - intros nm lk s w' r H [rc Hin].
    unfold get_current in H; unfold_monad.
    split_run respond H; inversion H; subst; simpl in Hin;
      repeat match type of Hin with
      | _ \/ _ => destruct Hin as [Hin | Hin]
      end;
      try (exfalso; solve [inversion Hin]);
      rc_eqs; (split; [apply negb_true_iff; assumption|]); eauto.
  - intros nm lk s s1 out cur s2 q pre line post t0 t ts
      Hl Hd Hc Hq Hsl Hpre Hline Hsw.
    unfold get_current; unfold_monad. simpl. rewrite Hd. simpl.
    rewrite Hc, Hl. simpl. rewrite Hq. simpl. rewrite Hsl.
    rewrite (find_link_line_first _ _ _ Hpre Hline), Hsw. reflexivity.
  - intros nm lk s s1 out cur s2 rc q Hl Hd Hc Hq Hno.
    unfold get_current; unfold_monad. simpl. rewrite Hd. simpl.
    rewrite Hc, Hl. simpl. rewrite Hq. simpl.
    destruct Hno as [Hrc | Hno].
    + apply Z.eqb_neq in Hrc. rewrite Hrc. reflexivity.
    + destruct (Z.eqb rc 0); [|reflexivity].
      rewrite (find_link_line_none _ Hno). reflexivity.
Qed.

(** With read-only [--display] and [--query], a probe that does not end
    the run leaves the oracle state as it was, and its current path and
    candidates are read from [--display] alone. *)
Lemma get_current_view nm lk s w c a l :
  (forall s0 c0, is_mutating c0 = false -> fst (respond s0 c0) = s0) ->
  get_current respond nm lk {| oracle_st := s; trace := [] |} =
    (w, Cont (c, a, l)) ->
  oracle_st w = s /\
  (c, a) = (let (_, r) := respond s (Display nm) in
            if Z.eqb (fst r) 0
            then (current_path_search (snd r), alternative_findall (snd r))
            else (None, [])).
Proof.
  intros Hro H.
  pose proof (Hro s (Display nm) eq_refl) as Hd.
  unfold get_current in H; unfold_monad.
  split_run respond H; inversion H; subst; simpl;
    repeat match goal with
    | E : respond ?s0 ?c0 = _ |- _ =>
        let Hk := fresh "Hk" in
        pose proof (Hro s0 c0 eq_refl) as Hk; rewrite E in Hk;
        simpl in Hk; subst; revert E
    end; intros; simpl in *;
    repeat match goal with E : respond _ (Display _) = _ |- _ => rewrite E end;
    simpl; repeat match goal with H0 : _ = _ |- _ => rewrite H0 end;
    auto.
Qed.

Lemma remove_alternative_congr nm pth alts w1 w2 :
  oracle_st w1 = oracle_st w2 ->
  mutations (trace w1) = mutations (trace w2) ->
  snd (remove_alternative respond nm pth alts w1) =
    snd (remove_alternative respond nm pth alts w2) /\
  mutations (trace (fst (remove_alternative respond nm pth alts w1))) =
    mutations (trace (fst (remove_alternative respond nm pth alts w2))).
Proof.
  intros Hs Hm. unfold remove_alternative.
  destruct (mem pth alts); [|split; [reflexivity | exact Hm]].
  unfold_monad. simpl. rewrite Hs.
  destruct (respond (oracle_st w2) (Remove nm pth)) as [s' [rc o]].
  simpl. destruct (Z.eqb rc 0); simpl; split; try reflexivity;
    rewrite !mutations_app, Hm; reflexivity.
Qed.

(** C10 (amended): for an absent state the priority changes nothing in a
    run; the link changes only whether the probe issues the read-only
    [--query]: when both probes complete, the outcome and the mutating
    commands are the same. *)
Theorem absent_ignores_link_and_priority :
  (forall p1 p2 s,
     state p1 = absent -> state p2 = absent ->
     name p1 = name p2 -> path p1 = path p2 -> link p1 = link p2 ->
     run respond p1 s = run respond p2 s) /\
  ((forall s0 c0, is_mutating c0 = false -> fst (respond s0 c0) = s0) ->
   forall p1 p2 s w1 w2 c1 a1 l1 c2 a2 l2,
     state p1 = absent -> state p2 = absent ->
     name p1 = name p2 -> path p1 = path p2 ->
     get_current respond (name p1) (link p1)
       {| oracle_st := s; trace := [] |} = (w1, Cont (c1, a1, l1)) ->
     get_current respond (name p2) (link p2)
       {| oracle_st := s; trace := [] |} = (w2, Cont (c2, a2, l2)) ->
     outcome_of (run respond p1 s) = outcome_of (run respond p2 s) /\
     mutations (trace (fst (run respond p1 s))) =
       mutations (trace (fst (run respond p2 s)))).
Proof.
  split.
  - intros p1 p2 s Hs1 Hs2 Hn Hp Hl.
    unfold run, main, bind. rewrite Hn, Hl.
    destruct (get_current respond (name p2) (link p2)
                {| oracle_st := s; trace := [] |})
      as [w [[[c a] l] | o]]; [|reflexivity].
    rewrite Hs1, Hs2, Hp. reflexivity.
  - intros Hro p1 p2 s w1 w2 c1 a1 l1 c2 a2 l2 Hs1 Hs2 Hn Hp Hg1 Hg2.
    destruct (get_current_view _ _ _ _ _ _ _ Hro Hg1) as [Hw1 Hv1].
    destruct (get_current_view _ _ _ _ _ _ _ Hro Hg2) as [Hw2 Hv2].
    rewrite <- Hn in Hv2. rewrite <- Hv1 in Hv2.
    injection Hv2 as Hc Ha. subst c2 a2.
    unfold run, outcome_of.
    rewrite (main_after_probe _ _ _ _ _ _ _ Hg1), Hs1.
    rewrite (main_after_probe _ _ _ _ _ _ _ Hg2), Hs2.
    rewrite <- Hn, <- Hp.
    destruct (remove_alternative_congr (name p1) (path p1) a1 w1 w2)
      as [Ho Hm].
    + congruence.
    + rewrite (get_current_no_mutation _ _ _ _ _ _ Hg1),
        (get_current_no_mutation _ _ _ _ _ _ Hg2). reflexivity.
    + rewrite Ho, Hm. split; reflexivity.
Qed.
End Claims.

(** C7: the parse of the spec's example report. *)
Theorem parse_vim_example :
  current_path_search vim_display = Some "/usr/bin/vim.basic" /\
  alternative_findall vim_display = ["/usr/bin/vim.basic"; "/usr/bin/vim.tiny"].
Proof. split; vm_compute; reflexivity. Qed.

(** ** Witnesses and counterexamples *)

Lemma display_unparsed_raises_witness :
  run (fixed_respond unparsed_display)
      (mk_params "editor" "/usr/bin/vim.tiny" None 50 present false) tt =
    ({| oracle_st := tt; trace := [(Display "editor", 0%Z)] |},
     Halt (Raised AttributeError)).
Proof.
  apply (display_unparsed_raises (fixed_respond unparsed_display)
           (mk_params "editor" "/usr/bin/vim.tiny" None 50 present false)
           tt tt unparsed_display).
  - reflexivity.
  - vm_compute. reflexivity.
Defined.

Lemma display_failure_not_registered_witness :
  get_current db_respond "vi" None {| oracle_st := db0; trace := [] |} =
    ({| oracle_st := db0; trace := [(Display "vi", 2%Z)] |},
     Cont (None, [], None)).
Proof.
  apply (display_failure_not_registered db_respond "vi" None
           {| oracle_st := db0; trace := [] |} db0 2%Z "").
  - vm_compute. reflexivity.
  - discriminate.
Defined.

(** ** The database model: a successful [--set] is displayed as current *)

Lemma lit_app {A} (w : string) (k : string -> option A) (t : string) :
  lit w k (w ++ t) = k t.
Proof.
  induction w as [|c w IH]; simpl; [reflexivity|].
  rewrite Ascii.eqb_refl. exact IH.
Qed.

Lemma dot_star_line {A} (q : string) (k : string -> string -> option A)
    (rest : string) (a : A) :
  no_nl q = true ->
  k q (String NL rest) = Some a ->
  dot_star k (q ++ String NL rest) = Some a.
Proof.
  revert k. induction q as [|c q IH]; intros k Hq Hk; simpl in *.
  - exact Hk.
  - apply andb_prop in Hq as [Hc Hq]. apply negb_true_iff in Hc.
    rewrite Hc. rewrite (IH (fun g r => k (String c g) r) Hq Hk).
    reflexivity.
Qed.

Lemma search_multiline_first {A} (m : string -> option A) s a :
  m s = Some a -> search_multiline m true s = Some a.
Proof. intro H. destruct s; simpl; rewrite H; reflexivity. Qed.

Lemma current_path_search_render (q rest : string) :
  no_nl q = true ->
  current_path_search ("link currently points to " ++ q ++ String NL rest)
    = Some q.
Proof.
  intro Hq. unfold current_path_search. apply search_multiline_first.
  unfold current_path_at.
  change (ws_star ?k ("link currently points to " ++ ?x))
    with (k ("link currently points to " ++ x)).
  rewrite lit_app. apply dot_star_line; [exact Hq | reflexivity].
Qed.

Lemma db_update_same d n g : db_update d n g n = g.
Proof. unfold db_update. rewrite String.eqb_refl. reflexivity. Qed.

Lemma db_set_displayed (d d' : db) n q out :
  no_nl q = true ->
  db_respond d (SetAlt n q) = (d', (0%Z, out)) ->
  exists d'' out',
    db_respond d' (Display n) = (d'', (0%Z, out')) /\
    current_path_search out' = Some q.
Proof.
  intros Hq H. simpl in H.
  destruct (d n) as [g|]; [|discriminate H].
  destruct (mem q (map fst (g_alts g))); [|discriminate H].
  injection H as Hd Ho. subst d'.
  simpl. rewrite db_update_same.
  eexists; eexists; split; [reflexivity|].
  unfold render_display. simpl g_current.
  apply current_path_search_render. exact Hq.
Qed.

Lemma db_reads_keep_state (d : db) (c : command) :
  is_mutating c = false -> fst (db_respond d c) = d.
Proof.
  destruct c; simpl; intro H; try discriminate H;
    destruct (d name0); reflexivity.
Qed.

(** ** Concrete runs: code defects, counterexamples and witnesses *)

(** C1: in check mode an absent state whose path is a candidate still
    issues [--remove] and changes the database, whereas the present branch
    under check mode issues no mutating command. *)
Theorem check_mode_absent_still_removes :
  outcome_of (run db_respond
    (mk_params "editor" "/usr/bin/vim.tiny" (Some "/usr/bin/editor") 50
       absent true) db0) = Some (Exited true) /\
  mutations (trace (fst (run db_respond
    (mk_params "editor" "/usr/bin/vim.tiny" (Some "/usr/bin/editor") 50
       absent true) db0))) = [(Remove "editor" "/usr/bin/vim.tiny", 0%Z)] /\
  option_map g_alts (oracle_st (fst (run db_respond
    (mk_params "editor" "/usr/bin/vim.tiny" (Some "/usr/bin/editor") 50
       absent true) db0)) "editor") = Some [("/usr/bin/vim.basic", 30%Z)] /\
  mutations (trace (fst (run db_respond
    (mk_params "editor" "/usr/bin/vim.tiny" (Some "/usr/bin/editor") 50
       present true) db0))) = [].
Proof. vm_compute. repeat split. Qed.

(** C2 as stated fails: under check mode a present state needing an
    installation without a link reports [changed=true]; and a current path
    that is not among the listed candidates gives [changed=false]. *)
Lemma missing_link_counterexample :
  outcome_of (run db_respond
    (mk_params "vi" "/usr/bin/vim.tiny" None 50 present true) db0)
    = Some (Exited true) /\
  outcome_of (run (fixed_respond ("link currently points to /opt/vim" ++ nls))
    (mk_params "editor" "/opt/vim" None 50 present false) tt)
    = Some (Exited false).
Proof. vm_compute. split; reflexivity. Qed.

Lemma missing_link_fails_witness :
  run db_respond (mk_params "vi" "/usr/bin/vim.tiny" None 50 present false) db0
    = ({| oracle_st := db0; trace := [(Display "vi", 2%Z)] |},
       Halt (Failed MissingLinkError)) /\
  mutations [(Display "vi", 2%Z)] = [].
Proof.
  apply (missing_link_fails db_respond
           (mk_params "vi" "/usr/bin/vim.tiny" None 50 present false) db0
           {| oracle_st := db0; trace := [(Display "vi", 2%Z)] |} None [] None).
  - reflexivity.
  - vm_compute. reflexivity.
  - reflexivity.
  - reflexivity.
  - reflexivity.
Defined.

(** C4 as stated fails: two check-mode runs both report [changed=true], and
    a run on an already converged group reports [changed=false] first. *)
Lemma rerun_counterexample :
  outcome_of (run db_respond
    (mk_params "editor" "/usr/bin/vim.tiny" (Some "/usr/bin/editor") 50
       present true) db0) = Some (Exited true) /\
  outcome_of (run db_respond
    (mk_params "editor" "/usr/bin/vim.tiny" (Some "/usr/bin/editor") 50
       present true)
    (oracle_st (fst (run db_respond
       (mk_params "editor" "/usr/bin/vim.tiny" (Some "/usr/bin/editor") 50
          present true) db0)))) = Some (Exited true) /\
  outcome_of (run db_respond
    (mk_params "editor" "/usr/bin/vim.basic" (Some "/usr/bin/editor") 50
       present false) db0) = Some (Exited false).
Proof. vm_compute. repeat split. Qed.

Lemma converged_is_noop_and_rerun_unchanged_witness :
  (run db_respond
     (mk_params "editor" "/usr/bin/vim.basic" (Some "/usr/bin/editor") 50
        present false) db0 =
   ({| oracle_st := db0; trace := [(Display "editor", 0%Z)] |},
    Halt (Exited false)) /\
   mutations [(Display "editor", 0%Z)] = []) /\
  (let p := mk_params "editor" "/usr/bin/vim.tiny" None 50 present false in
   let s' := oracle_st (fst (run db_respond p db0)) in
   outcome_of (run db_respond p s') = Some (Exited false) \/
   (truthy (link p) = false /\
    outcome_of (run db_respond p s') = Some (Raised IndexError) /\
    exists s1 out s2 qo line,
      db_respond s' (Display (name p)) = (s1, (0%Z, out)) /\
      current_path_search out = Some (path p) /\
      db_respond s1 (Query (name p)) = (s2, (0%Z, qo)) /\
      find_link_line (splitlines qo) = Some line /\
      nth_error (split_ws line) 1 = None)).
Proof.
  destruct (converged_is_noop_and_rerun_unchanged db_respond) as [H1 H2].
  split.
  - apply (H1 (mk_params "editor" "/usr/bin/vim.basic" (Some "/usr/bin/editor")
                 50 present false) db0
              {| oracle_st := db0; trace := [(Display "editor", 0%Z)] |}
              ["/usr/bin/vim.basic"; "/usr/bin/vim.tiny"]
              (Some "/usr/bin/editor")).
    + reflexivity.
    + vm_compute. reflexivity.
  - apply (H2 db_set_displayed
             (mk_params "editor" "/usr/bin/vim.tiny" None 50 present false)
             db0).
    + reflexivity.
    + reflexivity.
    + reflexivity.
    + vm_compute. reflexivity.
Defined.

(** C5 as stated fails: when [--remove] exits with a non-zero status the
    run reports that failure, not [changed=true]. *)
Lemma absent_remove_counterexample :
  outcome_of (run denied_respond
    (mk_params "editor" "/usr/bin/vim.tiny" None 50 absent false) db0)
    = Some (Failed (OracleExecutionError
                      (Remove "editor" "/usr/bin/vim.tiny") 2%Z)).
Proof. vm_compute. reflexivity. Qed.

Lemma absent_removes_or_noop_witness :
  (exists rc,
     mutations (trace (fst (run db_respond
       (mk_params "editor" "/usr/bin/vim.tiny" (Some "/usr/bin/editor") 50
          absent false) db0))) = [(Remove "editor" "/usr/bin/vim.tiny", rc)] /\
     snd (run db_respond
       (mk_params "editor" "/usr/bin/vim.tiny" (Some "/usr/bin/editor") 50
          absent false) db0) =
       Halt (if Z.eqb rc 0 then Exited true
             else Failed (OracleExecutionError
                            (Remove "editor" "/usr/bin/vim.tiny") rc))) /\
  (run db_respond
     (mk_params "editor" "/usr/bin/nano" (Some "/usr/bin/editor") 50
        absent false) db0 =
   ({| oracle_st := db0; trace := [(Display "editor", 0%Z)] |},
    Halt (Exited false)) /\
   mutations [(Display "editor", 0%Z)] = []).
Proof.
  split.
  - apply (absent_removes_or_noop db_respond
             (mk_params "editor" "/usr/bin/vim.tiny" (Some "/usr/bin/editor")
                50 absent false) db0
             {| oracle_st := db0; trace := [(Display "editor", 0%Z)] |}
             (Some "/usr/bin/vim.basic")
             ["/usr/bin/vim.basic"; "/usr/bin/vim.tiny"]
             (Some "/usr/bin/editor")).
    + reflexivity.
    + vm_compute. reflexivity.
    + reflexivity.
  - apply (absent_removes_or_noop db_respond
             (mk_params "editor" "/usr/bin/nano" (Some "/usr/bin/editor")
                50 absent false) db0
             {| oracle_st := db0; trace := [(Display "editor", 0%Z)] |}
             (Some "/usr/bin/vim.basic")
             ["/usr/bin/vim.basic"; "/usr/bin/vim.tiny"]
             (Some "/usr/bin/editor")).
    + reflexivity.
    + vm_compute. reflexivity.
    + reflexivity.
Defined.

Lemma install_then_set_witness :
  exists rc1,
    (rc1 <> 0%Z /\
     mutations (trace (fst (run db_respond
       (mk_params "editor" "/usr/bin/nano" (Some "/usr/bin/editor") 40
          present false) db0))) =
       [(Install "/usr/bin/editor" "editor" "/usr/bin/nano" 40, rc1)] /\
     snd (run db_respond
       (mk_params "editor" "/usr/bin/nano" (Some "/usr/bin/editor") 40
          present false) db0) =
       Halt (Failed (OracleExecutionError
                       (Install "/usr/bin/editor" "editor" "/usr/bin/nano" 40)
                       rc1)))
    \/
    (rc1 = 0%Z /\
     exists rc2,
       mutations (trace (fst (run db_respond
         (mk_params "editor" "/usr/bin/nano" (Some "/usr/bin/editor") 40
            present false) db0))) =
         [(Install "/usr/bin/editor" "editor" "/usr/bin/nano" 40, 0%Z);
          (SetAlt "editor" "/usr/bin/nano", rc2)] /\
       snd (run db_respond
         (mk_params "editor" "/usr/bin/nano" (Some "/usr/bin/editor") 40
            present false) db0) =
         Halt (if Z.eqb rc2 0 then Exited true
               else Failed (OracleExecutionError
                              (SetAlt "editor" "/usr/bin/nano") rc2))).
Proof.
  apply (install_then_set db_respond
           (mk_params "editor" "/usr/bin/nano" (Some "/usr/bin/editor") 40
              present false) db0
           {| oracle_st := db0; trace := [(Display "editor", 0%Z)] |}
           (Some "/usr/bin/vim.basic")
           ["/usr/bin/vim.basic"; "/usr/bin/vim.tiny"]
           "/usr/bin/editor").
  - reflexivity.
  - reflexivity.
  - vm_compute. reflexivity.
  - discriminate.
  - reflexivity.
  - reflexivity.
Defined.

Lemma query_link_resolution_witness :
  snd (get_current db_respond "editor" None
         {| oracle_st := db0; trace := [] |}) =
    Cont (Some "/usr/bin/vim.basic",
          alternative_findall (render_display editor_group),
          Some "/usr/bin/editor") /\
  snd (get_current (fixed_respond vim_display) "editor" None
         {| oracle_st := tt; trace := [] |}) =
    Cont (Some "/usr/bin/vim.basic", alternative_findall vim_display, None).
Proof.
  destruct (query_link_resolution db_respond) as [_ [Hb _]].
  destruct (query_link_resolution (fixed_respond vim_display))
    as [_ [_ Hc]].
  split.
  - apply (Hb "editor" None db0 db0 (render_display editor_group)
             "/usr/bin/vim.basic" db0 (render_query "editor" editor_group)
             ["Name: editor"] "Link: /usr/bin/editor"
             ["Status: manual"; "Value: /usr/bin/vim.basic"]
             "Link:" "/usr/bin/editor" []).
    + reflexivity.
    + reflexivity.
    + vm_compute. reflexivity.
    + reflexivity.
    + vm_compute. reflexivity.
    + constructor; [reflexivity | constructor].
    + reflexivity.
    + vm_compute. reflexivity.
  - apply (Hc "editor" None tt tt vim_display "/usr/bin/vim.basic" tt 0%Z "").
    + reflexivity.
    + reflexivity.
    + vm_compute. reflexivity.
    + reflexivity.
    + right. constructor.
Defined.

(** C10 as stated fails: without a link the probe of an absent state also
    issues [--query], so the commands issued depend on the link. *)
Lemma absent_link_counterexample :
  map fst (trace (fst (run db_respond
    (mk_params "editor" "/usr/bin/vim.tiny" None 50 absent false) db0))) <>
  map fst (trace (fst (run db_respond
    (mk_params "editor" "/usr/bin/vim.tiny" (Some "/usr/bin/editor") 50
       absent false) db0))).
Proof. vm_compute. intro H. inversion H. Qed.

Lemma absent_ignores_link_and_priority_witness :
  run db_respond
    (mk_params "editor" "/usr/bin/vim.tiny" None 50 absent false) db0 =
  run db_respond
    (mk_params "editor" "/usr/bin/vim.tiny" None 10 absent true) db0 /\
  (outcome_of (run db_respond
     (mk_params "editor" "/usr/bin/vim.tiny" None 50 absent false) db0) =
   outcome_of (run db_respond
     (mk_params "editor" "/usr/bin/vim.tiny" (Some "/usr/bin/editor") 10
        absent false) db0) /\
   mutations (trace (fst (run db_respond
     (mk_params "editor" "/usr/bin/vim.tiny" None 50 absent false) db0))) =
   mutations (trace (fst (run db_respond
     (mk_params "editor" "/usr/bin/vim.tiny" (Some "/usr/bin/editor") 10
        absent false) db0)))).
Proof.
  destruct (absent_ignores_link_and_priority db_respond) as [H1 H2].
  split.
  - apply H1; reflexivity.
  - apply (H2 db_reads_keep_state
             (mk_params "editor" "/usr/bin/vim.tiny" None 50 absent false)
             (mk_params "editor" "/usr/bin/vim.tiny" (Some "/usr/bin/editor")
                10 absent false)
             db0
             {| oracle_st := db0;
                trace := [(Display "editor", 0%Z); (Query "editor", 0%Z)] |}
             {| oracle_st := db0; trace := [(Display "editor", 0%Z)] |}
             (Some "/usr/bin/vim.basic")
             ["/usr/bin/vim.basic"; "/usr/bin/vim.tiny"]
             (Some "/usr/bin/editor")
             (Some "/usr/bin/vim.basic")
             ["/usr/bin/vim.basic"; "/usr/bin/vim.tiny"]
             (Some "/usr/bin/editor")).
    + reflexivity.
    + reflexivity.
    + reflexivity.
    + reflexivity.
    + vm_compute. reflexivity.
    + vm_compute. reflexivity.
Defined.

(** ** Further properties of the module *)

(** *** The parsers *)

Lemma ws_star_inv {A} (k : string -> option A) s a :
  ws_star k s = Some a -> exists r, k r = Some a.
Proof.
  induction s as [|c s IH]; simpl; intro H; [eauto|].
  destruct (is_space c); [|eauto].
  destruct (ws_star k s) eqn:E; [inversion H; subst; eauto | eauto].
Qed.

Lemma lit_inv {A} w (k : string -> option A) s a :
  lit w k s = Some a -> exists r, k r = Some a.
Proof.
  revert s. induction w as [|c w IH]; intros s H; simpl in H; [eauto|].
  destruct s as [|d s]; [discriminate H|].
  destruct (Ascii.eqb c d); [eauto | discriminate H].
Qed.

Lemma dot_star_inv {A} (k : string -> string -> option A) s a :
  dot_star k s = Some a ->
  exists g r, k g r = Some a /\ no_nl g = true.
Proof.
  revert k. induction s as [|c s IH]; intros k H; simpl in H; [eauto|].
  destruct (Ascii.eqb c NL) eqn:Ec; [eauto|].
  destruct (dot_star (fun g r => k (String c g) r) s) eqn:E.
  - inversion H; subst.
    destruct (IH _ E) as [g [r [Hk Hg]]].
    exists (String c g), r. simpl. rewrite Ec, Hg. auto.
  - eauto.
Qed.

Lemma search_multiline_inv {A} (m : string -> option A) b s a :
  search_multiline m b s = Some a -> exists s', m s' = Some a.
Proof.
  revert b. induction s as [|c s IH]; intros b H; simpl in H;
    destruct b; try destruct (m _) eqn:E; eauto; try discriminate H;
    inversion H; subst; eauto.
Qed.

Lemma alternative_at_inv s g rest :
  alternative_at s = Some (g, rest) ->
  exists g', g = String "/"%char g' /\ no_nl g' = true.
Proof.
  unfold alternative_at. intro H.
  destruct (lit_inv _ _ _ _ H) as [r Hr].
  destruct (dot_star_inv _ _ _ Hr) as [g' [r' [Hk Hg']]].
  destruct (one_space _ r'); [|discriminate Hk].
  injection Hk as Hg _. eauto.
Qed.

Lemma split_go_tokens s :
  no_space (fst (split_go s)) = true /\
  Forall (fun t => t <> "" /\ no_space t = true) (snd (split_go s)).
Proof.
  induction s as [|c s [IH1 IH2]]; simpl; [auto|].
  destruct (split_go s) as [t ts]. simpl in *.
  destruct (is_space c) eqn:Ec; simpl.
  - split; [reflexivity|].
    destruct (String.eqb t "") eqn:Et; [exact IH2|].
    constructor; [|exact IH2].
    split; [apply String.eqb_neq; exact Et | exact IH1].
  - rewrite Ec, IH1. split; [reflexivity | exact IH2].
Qed.

Lemma findall_go_paths n b s :
  Forall (fun g => exists g', g = String "/"%char g' /\ no_nl g' = true)
    (findall_go n b s).
Proof.
  revert b s. induction n as [|n IH]; intros b s; simpl; [constructor|].
  destruct (if b then alternative_at s else None) as [[g rest]|] eqn:E.
  - constructor; [|apply IH].
    destruct b; [|discriminate E]. exact (alternative_at_inv _ _ _ E).
  - destruct s; [constructor | apply IH].
Qed.

(** X9: every candidate read from a [--display] report starts with [/]
    and lies on one line. *)
Theorem alternative_findall_paths s :
  Forall (fun g => exists g', g = String "/"%char g' /\ no_nl g' = true)
    (alternative_findall s).
Proof. apply findall_go_paths. Qed.

(** X10: the current path read from a [--display] report lies on one line. *)
Theorem current_path_one_line s c :
  current_path_search s = Some c -> no_nl c = true.
Proof.
  unfold current_path_search, current_path_at. intro H.
  destruct (search_multiline_inv _ _ _ _ H) as [s1 H1].
  destruct (ws_star_inv _ _ _ H1) as [s2 H2].
  destruct (lit_inv _ _ _ _ H2) as [s3 H3].
  destruct (dot_star_inv _ _ _ H3) as [g [r [Hk Hg]]].
  destruct (dollar r); [|discriminate Hk].
  injection Hk as <-. exact Hg.
Qed.

(** Every token of [str.split()] is non-empty and has no whitespace. *)
Lemma split_ws_tokens s t :
  In t (split_ws s) -> t <> "" /\ no_space t = true.
Proof.
  unfold split_ws. pose proof (split_go_tokens s) as [H1 H2].
  destruct (split_go s) as [t0 ts]. simpl in *.
  rewrite Forall_forall in H2.
  destruct (String.eqb t0 "") eqn:E; [apply H2|].
  intros [<- | Hin]; [|apply H2; exact Hin].
  split; [apply String.eqb_neq; exact E | exact H1].
Qed.

(** Open a whole run recorded in hypothesis [H] into its cases. *)
Ltac open_run resp p H :=
  destruct p as [nm pth lk pr st chk]; unfold run, main in H; simpl in H;
  destruct st; unfold get_current, set_alternative, remove_alternative in H;
  unfold_monad; split_run resp H; inversion H; subst; clear H.

Section Extras.
Context {σ : Type} (respond : σ -> command -> σ * (Z * string)).

(** X7: a run that reports [changed=false] has issued no mutating
    command. *)
Theorem unchanged_means_no_mutation p s w :
  run respond p s = (w, Halt (Exited false)) ->
  mutations (trace w) = [].
Proof. intro H. open_run respond p H; reflexivity. Qed.

(** X8: an uncaught exception can only come from the probe: a failed
    [--display] parse after [--display] alone, or a [Link:] line without a
    second token after [--display] and [--query]; no mutating command has
    been issued. *)
Theorem exception_only_in_probe p s w e :
  run respond p s = (w, Halt (Raised e)) ->
  (e = AttributeError /\ map fst (trace w) = [Display (name p)]) \/
  (e = IndexError /\
   map fst (trace w) = [Display (name p); Query (name p)]).
Proof. intro H. open_run respond p H; simpl; auto. Qed.

(** X6: a run reports [changed=true] either in check mode for a present
    state, without any mutating command, or right after a successful
    [--set] (present state, real mode) or [--remove] (absent state) of the
    requested name and path, which is then the last oracle call. *)
Theorem changed_means_last_command p s w :
  run respond p s = (w, Halt (Exited true)) ->
  (state p = present /\ check_mode p = true /\ mutations (trace w) = []) \/
  (state p = present /\ check_mode p = false /\
   last (trace w) (Display (name p), 0%Z) = (SetAlt (name p) (path p), 0%Z)) \/
  (state p = absent /\
   last (trace w) (Display (name p), 0%Z) = (Remove (name p) (path p), 0%Z)).
Proof. intro H. open_run respond p H; rc_eqs; simpl; auto. Qed.

(** X5: an oracle command is never issued after a mutating command that
    failed: such a command is the last oracle call and the run ends with
    its failure. *)
Theorem failed_mutation_is_last p s w r c rc :
  run respond p s = (w, r) ->
  In (c, rc) (trace w) ->
  is_mutating c = true ->
  rc <> 0%Z ->
  last (trace w) (Display (name p), 0%Z) = (c, rc) /\
  r = Halt (Failed (OracleExecutionError c rc)).
Proof.
  intros H Hin Hm Hrc. open_run respond p H; rc_eqs; simpl in *;
    repeat match type of Hin with
    | _ \/ _ => destruct Hin as [Hin | Hin]
    end;
    try (exfalso; solve [inversion Hin]);
    try (injection Hin as <- <-); try discriminate Hm;
    try (exfalso; apply Hrc; reflexivity);
    auto.
Qed.

(** X2: the only mutating commands a run issues are the installation, the
    selection or the removal of the requested path in the requested group;
    an installation uses the requested priority. *)
Theorem mutations_target_request p s w r c rc :
  run respond p s = (w, r) ->
  In (c, rc) (trace w) ->
  is_mutating c = true ->
  (exists l, c = Install l (name p) (path p) (priority p)) \/
  c = SetAlt (name p) (path p) \/
  c = Remove (name p) (path p).
Proof.
  intros H Hin Hm. open_run respond p H; simpl in *;
    repeat match type of Hin with
    | _ \/ _ => destruct Hin as [Hin | Hin]
    end;
    try (exfalso; solve [inversion Hin]);
    try (injection Hin as <- <-); try discriminate Hm;
    eauto.
Qed.

(** X1: the probe issues [--display] first and then at most [--query] for
    the same name, nothing else. *)
Theorem probe_commands nm lk s w r :
  get_current respond nm lk {| oracle_st := s; trace := [] |} = (w, r) ->
  map fst (trace w) = [Display nm] \/
  map fst (trace w) = [Display nm; Query nm].
Proof.
  intro H. unfold get_current in H; unfold_monad.
  split_run respond H; inversion H; subst; simpl; auto.
Qed.

(** X11: the link the probe hands on is the one it was given, or, when no
    link was given, the second token of the first [Link:] line of a
    successful [--query] run right after a successful [--display]; that
    token is non-empty and has no whitespace. *)
Theorem probe_link_shape nm lk w w' c a l :
  get_current respond nm lk w = (w', Cont (c, a, l)) ->
  l = lk \/
  (truthy lk = false /\
   exists s1 dout qo line t,
     respond (oracle_st w) (Display nm) = (s1, (0%Z, dout)) /\
     respond s1 (Query nm) = (oracle_st w', (0%Z, qo)) /\
     find_link_line (splitlines qo) = Some line /\
     nth_error (split_ws line) 1 = Some t /\
     l = Some t /\ t <> "" /\ no_space t = true).
Proof.
  intro H. unfold get_current in H; unfold_monad.
  destruct (respond (oracle_st w) (Display nm)) as [s1 [rc dout]] eqn:Hd.
  simpl in H. destruct (Z.eqb rc 0) eqn:Hrc; [|inversion H; auto].
  apply Z.eqb_eq in Hrc. subst rc.
  destruct (current_path_search dout); [|discriminate H].
  destruct (truthy lk) eqn:Hl; simpl in H; [inversion H; auto|].
  destruct (respond s1 (Query nm)) as [s2 [rc' qo]] eqn:Hq.
  simpl in H. destruct (Z.eqb rc' 0) eqn:Hrc'; [|inversion H; auto].
  apply Z.eqb_eq in Hrc'. subst rc'.
  destruct (find_link_line (splitlines qo)) as [line|] eqn:Hf;
    [|inversion H; auto].
  destruct (split_ws line) as [|t0 [|t ts]] eqn:Hs;
    [simpl in H; discriminate H | simpl in H; discriminate H |].
  assert (Ht : nth_error (split_ws line) 1 = Some t) by (rewrite Hs; reflexivity).
  inversion H; subst. right. split; [reflexivity|].
  exists s1, dout, qo, line, t. simpl.
  pose proof (split_ws_tokens line t (nth_error_In (split_ws line) 1 Ht)).
  intuition.
Qed.

(** X3: in check mode a present state reports [changed=true] exactly when
    the probed current path differs from the requested one, and issues no
    mutating command. *)
Theorem check_mode_present_preview p s w1 cur alts lk :
  state p = present ->
  check_mode p = true ->
  get_current respond (name p) (link p) {| oracle_st := s; trace := [] |}
    = (w1, Cont (cur, alts, lk)) ->
  run respond p s = (w1, Halt (Exited (differs cur (path p)))) /\
  mutations (trace w1) = [].
Proof.
  intros Hst Hchk Hg. split; [|exact (get_current_no_mutation _ _ _ _ _ _ Hg)].
  unfold run. rewrite (main_after_probe _ _ _ _ _ _ _ Hg), Hst, Hchk.
  unfold set_alternative. destruct (differs cur (path p)); reflexivity.
Qed.

(** X4: in real mode a present state whose path is a candidate but not
    the current one issues [--set] alone, and its status decides between
    [changed=true] and a failure. *)
Theorem select_only p s w1 cur alts lk :
  state p = present ->
  check_mode p = false ->
  get_current respond (name p) (link p) {| oracle_st := s; trace := [] |}
    = (w1, Cont (cur, alts, lk)) ->
  differs cur (path p) = true ->
  mem (path p) alts = true ->
  exists rc,
    mutations (trace (fst (run respond p s))) =
      [(SetAlt (name p) (path p), rc)] /\
    snd (run respond p s) =
      Halt (if Z.eqb rc 0 then Exited true
            else Failed (OracleExecutionError (SetAlt (name p) (path p)) rc)).
Proof.
  intros Hst Hchk Hg Hd Hmem.
  pose proof (get_current_no_mutation _ _ _ _ _ _ Hg) as Hm0.
  unfold run. rewrite (main_after_probe _ _ _ _ _ _ _ Hg), Hst, Hchk.
  unfold set_alternative. rewrite Hd, Hmem. unfold_monad. simpl.
  destruct (respond (oracle_st w1) (SetAlt (name p) (path p)))
    as [s2 [rc o]] eqn:E.
  simpl. exists rc.
  destruct (Z.eqb rc 0); simpl; split; try reflexivity;
    rewrite mutations_app, Hm0; reflexivity.
Qed.

(** X12: the priority matters only for an installation: when the probed
    candidates contain the requested path, or it is already current, two
    runs that differ only in priority are the same. *)
Theorem priority_only_for_install p1 p2 s w1 cur alts lk :
  name p1 = name p2 -> path p1 = path p2 -> link p1 = link p2 ->
  state p1 = state p2 -> check_mode p1 = check_mode p2 ->
  get_current respond (name p1) (link p1) {| oracle_st := s; trace := [] |}
    = (w1, Cont (cur, alts, lk)) ->
  (mem (path p1) alts = true \/ differs cur (path p1) = false) ->
  run respond p1 s = run respond p2 s.
Proof.
  intros Hn Hp Hl Hs Hc Hg Hcase.
  unfold run.
  rewrite (main_after_probe _ _ _ _ _ _ _ Hg).
  assert (Hg2 : get_current respond (name p2) (link p2)
                  {| oracle_st := s; trace := [] |} =
                (w1, Cont (cur, alts, lk))) by (rewrite <- Hn, <- Hl; exact Hg).
  rewrite (main_after_probe _ _ _ _ _ _ _ Hg2).
  rewrite <- Hn, <- Hp, <- Hs, <- Hc.
  destruct (state p1); [|reflexivity].
  unfold set_alternative.
  destruct Hcase as [Hm | Hd].
  - rewrite Hm. reflexivity.
  - rewrite Hd. reflexivity.
Qed.

(** X13: removing a path from a group the oracle does not know
    ([--display] fails) reports [changed=false] after [--display] alone. *)
Theorem absent_unregistered_noop p s s1 rc out :
  state p = absent ->
  respond s (Display (name p)) = (s1, (rc, out)) ->
  rc <> 0%Z ->
  run respond p s =
    ({| oracle_st := s1; trace := [(Display (name p), rc)] |},
     Halt (Exited false)).
Proof.
  intros Hst Hd Hrc.
  assert (Hg : get_current respond (name p) (link p)
                 {| oracle_st := s; trace := [] |} =
               ({| oracle_st := s1; trace := [(Display (name p), rc)] |},
                Cont (None, [], link p))).
  { unfold get_current; unfold_monad. simpl. rewrite Hd. simpl.
    apply Z.eqb_neq in Hrc. rewrite Hrc. reflexivity. }
  unfold run. rewrite (main_after_probe _ _ _ _ _ _ _ Hg), Hst.
  reflexivity.
Qed.
End Extras.

(** *** Witnesses of the further properties *)

Lemma probe_commands_witness :
  map fst (trace (fst (get_current db_respond "editor" None
                         {| oracle_st := db0; trace := [] |}))) =
    [Display "editor"] \/
  map fst (trace (fst (get_current db_respond "editor" None
                         {| oracle_st := db0; trace := [] |}))) =
    [Display "editor"; Query "editor"].
Proof.
  apply (probe_commands db_respond "editor" None db0 _
           (snd (get_current db_respond "editor" None
                   {| oracle_st := db0; trace := [] |}))).
  vm_compute. reflexivity.
Defined.

Lemma mutations_target_request_witness :
  (exists l, Install "/usr/bin/editor" "editor" "/usr/bin/nano" 40 =
             Install l "editor" "/usr/bin/nano" 40) \/
  Install "/usr/bin/editor" "editor" "/usr/bin/nano" 40 =
    SetAlt "editor" "/usr/bin/nano" \/
  Install "/usr/bin/editor" "editor" "/usr/bin/nano" 40 =
    Remove "editor" "/usr/bin/nano".
Proof.
  apply (mutations_target_request db_respond p_install db0
           (fst (run db_respond p_install db0))
           (snd (run db_respond p_install db0))
           (Install "/usr/bin/editor" "editor" "/usr/bin/nano" 40) 0%Z).
  - vm_compute. reflexivity.
  - vm_compute. auto.
  - reflexivity.
Defined.

Lemma failed_mutation_is_last_witness :
  last (trace (fst (run denied_respond p_install db0))) (Display "editor", 0%Z)
    = (Install "/usr/bin/editor" "editor" "/usr/bin/nano" 40, 2%Z) /\
  snd (run denied_respond p_install db0) =
    Halt (Failed (OracleExecutionError
                    (Install "/usr/bin/editor" "editor" "/usr/bin/nano" 40) 2%Z)).
Proof.
  apply (failed_mutation_is_last denied_respond p_install db0
           (fst (run denied_respond p_install db0))
           (snd (run denied_respond p_install db0))).
  - vm_compute. reflexivity.
  - vm_compute. auto.
  - reflexivity.
  - discriminate.
Defined.

Lemma changed_means_last_command_witness :
  (state p_remove = present /\ check_mode p_remove = true /\
   mutations (trace (fst (run db_respond p_remove db0))) = []) \/
  (state p_remove = present /\ check_mode p_remove = false /\
   last (trace (fst (run db_respond p_remove db0))) (Display "editor", 0%Z) =
     (SetAlt "editor" "/usr/bin/vim.tiny", 0%Z)) \/
  (state p_remove = absent /\
   last (trace (fst (run db_respond p_remove db0))) (Display "editor", 0%Z) =
     (Remove "editor" "/usr/bin/vim.tiny", 0%Z)).
Proof.
  apply (changed_means_last_command db_respond p_remove db0).
  vm_compute. reflexivity.
Defined.

Lemma unchanged_means_no_mutation_witness :
  mutations (trace (fst (run db_respond p_converged db0))) = [].
Proof.
  apply (unchanged_means_no_mutation db_respond p_converged db0).
  vm_compute. reflexivity.
Defined.

Lemma exception_only_in_probe_witness :
  (AttributeError = AttributeError /\
   map fst (trace (fst (run (fixed_respond unparsed_display) p_select tt))) =
     [Display "editor"]) \/
  (AttributeError = IndexError /\
   map fst (trace (fst (run (fixed_respond unparsed_display) p_select tt))) =
     [Display "editor"; Query "editor"]).
Proof.
  apply (exception_only_in_probe (fixed_respond unparsed_display) p_select tt).
  vm_compute. reflexivity.
Defined.

Lemma current_path_one_line_witness : no_nl "/usr/bin/vim.basic" = true.
Proof.
  apply (current_path_one_line vim_display).
  vm_compute. reflexivity.
Defined.

Lemma probe_link_shape_witness :
  Some "/usr/bin/editor" = None \/
  (truthy None = false /\
   exists s1 dout qo line t,
     db_respond db0 (Display "editor") = (s1, (0%Z, dout)) /\
     db_respond s1 (Query "editor") = (db0, (0%Z, qo)) /\
     find_link_line (splitlines qo) = Some line /\
     nth_error (split_ws line) 1 = Some t /\
     Some "/usr/bin/editor" = Some t /\ t <> "" /\ no_space t = true).
Proof.
  apply (probe_link_shape db_respond "editor" None
           {| oracle_st := db0; trace := [] |}
           {| oracle_st := db0;
              trace := [(Display "editor", 0%Z); (Query "editor", 0%Z)] |}
           (Some "/usr/bin/vim.basic")
           ["/usr/bin/vim.basic"; "/usr/bin/vim.tiny"]).
  vm_compute. reflexivity.
Defined.

Lemma check_mode_present_preview_witness :
  run db_respond
    (mk_params "editor" "/usr/bin/vim.tiny" (Some "/usr/bin/editor") 50
       present true) db0 =
    ({| oracle_st := db0; trace := [(Display "editor", 0%Z)] |},
     Halt (Exited (differs (Some "/usr/bin/vim.basic") "/usr/bin/vim.tiny"))) /\
  mutations [(Display "editor", 0%Z)] = [].
Proof.
  apply (check_mode_present_preview db_respond
           (mk_params "editor" "/usr/bin/vim.tiny" (Some "/usr/bin/editor") 50
              present true) db0
           {| oracle_st := db0; trace := [(Display "editor", 0%Z)] |}
           (Some "/usr/bin/vim.basic")
           ["/usr/bin/vim.basic"; "/usr/bin/vim.tiny"]
           (Some "/usr/bin/editor")).
  - reflexivity.
  - reflexivity.
  - vm_compute. reflexivity.
Defined.

Lemma select_only_witness :
  exists rc,
    mutations (trace (fst (run db_respond p_select db0))) =
      [(SetAlt "editor" "/usr/bin/vim.tiny", rc)] /\
    snd (run db_respond p_select db0) =
      Halt (if Z.eqb rc 0 then Exited true
            else Failed (OracleExecutionError
                           (SetAlt "editor" "/usr/bin/vim.tiny") rc)).
Proof.
  apply (select_only db_respond p_select db0
           {| oracle_st := db0; trace := [(Display "editor", 0%Z)] |}
           (Some "/usr/bin/vim.basic")
           ["/usr/bin/vim.basic"; "/usr/bin/vim.tiny"]
           (Some "/usr/bin/editor")).
  - reflexivity.
  - reflexivity.
  - vm_compute. reflexivity.
  - reflexivity.
  - reflexivity.
Defined.

Lemma priority_only_for_install_witness :
  run db_respond p_select db0 =
  run db_respond
    (mk_params "editor" "/usr/bin/vim.tiny" (Some "/usr/bin/editor") 10
       present false) db0.
Proof.
  apply (priority_only_for_install db_respond p_select
           (mk_params "editor" "/usr/bin/vim.tiny" (Some "/usr/bin/editor") 10
              present false) db0
           {| oracle_st := db0; trace := [(Display "editor", 0%Z)] |}
           (Some "/usr/bin/vim.basic")
           ["/usr/bin/vim.basic"; "/usr/bin/vim.tiny"]
           (Some "/usr/bin/editor")).
  - reflexivity.
  - reflexivity.
  - reflexivity.
  - reflexivity.
  - reflexivity.
  - vm_compute. reflexivity.
  - left. reflexivity.
Defined.

Lemma absent_unregistered_noop_witness :
  run db_respond (mk_params "vi" "/usr/bin/vim.tiny" None 50 absent false) db0 =
    ({| oracle_st := db0; trace := [(Display "vi", 2%Z)] |},
     Halt (Exited false)).
Proof.
  apply (absent_unregistered_noop db_respond
           (mk_params "vi" "/usr/bin/vim.tiny" None 50 absent false) db0 db0
           2%Z "").
  - reflexivity.
  - vm_compute. reflexivity.
  - discriminate.
Defined.
